(** * EmbedMan: a model of [embed_man/embed_manager.py]

    [EmbedManager] loads documents from a directory, splits them into
    chunks, embeds the chunks (optionally through an on-disk cache) and
    returns a retriever.  The class is a thin orchestration layer: the
    loader, the splitter, the embedding model, the byte store, the
    cache-backed wrapper and the vector index are collaborators that
    live outside the package.  The development below embeds the class
    method by method over an explicit world (Python heap, cache
    directory contents, logging state and a history of collaborator
    calls) and proves the properties of the specification about it. *)

From Stdlib Require Import ZArith.
From stdpp Require Import base option list gmap strings pretty.

(** * Part I: the model *)

(** ** Python runtime: exceptions, objects, the world *)

(** An exception object: its class name, whether the class derives
    from [Exception] (as opposed to a bare [BaseException] such as
    [KeyboardInterrupt]), which is what [except Exception] tests, and
    what [str(e)] does.  For most exceptions [str(e)] returns the
    message ([mkExn]); a class may define a [__str__] that raises
    ([mkUnprintable], with the exception it raises). *)
Inductive Exn :=
| mkExn (class : string) (is_exception : bool) (msg : string)
| mkUnprintable (class : string) (is_exception : bool) (raised : Exn).

Definition exn_class (e : Exn) : string :=
  match e with
  | mkExn c _ _ | mkUnprintable c _ _ => c
  end.

Definition exn_is_Exception (e : Exn) : bool :=
  match e with
  | mkExn _ b _ | mkUnprintable _ b _ => b
  end.

Inductive result (A : Type) : Type :=
| Ok (a : A)
| Raise (e : Exn).

Arguments Ok {A} a.

Arguments Raise {A} e.

(** [str(e)], as evaluated by the f-string [f"...{e}"]. *)
Definition py_str (e : Exn) : result string :=
  match e with
  | mkExn _ _ msg => Ok msg
  | mkUnprintable _ _ raised => Raise raised
  end.

Definition is_ok {A} (r : result A) : bool :=
  match r with Ok _ => true | Raise _ => false end.

(** Heap locations and the mutable objects the configuration refers to. *)
Definition loc := positive.

Inductive PyObj :=
| PyList (items : list string)
| PyDict (entries : gmap string Z).

(** Calls to collaborators, as recorded in the history of a world. *)
Inductive Event :=
| EvBasicConfig (level : string)
| EvLog (level msg : string)
| EvStoreNew (root : string)
| EvModelNew
| EvWrapperNew (root ns : string)
| EvStoreGet (root key : string)
| EvStorePut (root key : string)
| EvModelCall (batch : list string).

Record World := mkWorld {
  heap : gmap loc PyObj;
  (** cache directory contents: (directory, key) to raw bytes *)
  disk : gmap (string * string) (list Byte.byte);
  (** directories that cannot be written *)
  readonly : gset string;
  (** (directory, key) pairs on which reads and writes fail *)
  faulty : gset (string * string);
  (** whether the root logger already has a handler *)
  logging_configured : bool;
  (** chronological history of collaborator calls *)
  trace : list Event
}.

Definition set_disk (d : gmap (string * string) (list Byte.byte)) (w : World) : World :=
  mkWorld (heap w) d (readonly w) (faulty w) (logging_configured w) (trace w).

Definition set_logging (b : bool) (w : World) : World :=
  mkWorld (heap w) (disk w) (readonly w) (faulty w) b (trace w).

Definition add_events (evs : list Event) (w : World) : World :=
  mkWorld (heap w) (disk w) (readonly w) (faulty w) (logging_configured w) (trace w ++ evs).

(** ** The monad of method bodies: state passing with exceptions *)

Definition M (A : Type) : Type := World -> result A * World.

Definition ret {A} (a : A) : M A := fun w => (Ok a, w).

Definition raise {A} (e : Exn) : M A := fun w => (Raise e, w).

Definition bind {A B} (c : M A) (k : A -> M B) : M B :=
  fun w =>
    match c w with
    | (Ok a, w') => k a w'
    | (Raise e, w') => (Raise e, w')
    end.

Definition emit (ev : Event) : M unit := fun w => (Ok tt, add_events [ev] w).

Definition lift {A} (r : result A) : M A := fun w => (r, w).

(** [try: body except Exception as e: handler e; raise] *)
Definition try_except_reraise {A} (body : M A) (handler : Exn -> M unit) : M A :=
  fun w =>
    match body w with
    | (Ok a, w') => (Ok a, w')
    | (Raise e, w') =>
        if exn_is_Exception e then
          match handler e w' with
          | (Ok _, w'') => (Raise e, w'')
          | (Raise e', w'') => (Raise e', w'')
          end
        else (Raise e, w')
    end.

(** [try: body except Exception as e: handler e] *)
Definition try_except {A} (body : M A) (handler : Exn -> M A) : M A :=
  fun w =>
    match body w with
    | (Ok a, w') => (Ok a, w')
    | (Raise e, w') => if exn_is_Exception e then handler e w' else (Raise e, w')
    end.

Declare Scope py_scope.
Delimit Scope py_scope with py.
Notation "x <- c ;; k" := (bind c (fun x => k))
  (at level 100, c at next level, right associativity) : py_scope.
Notation "c ;;; k" := (bind c (fun _ => k))
  (at level 100, right associativity) : py_scope.
Local Open Scope py_scope.

(** ** The [logging] module, as far as the class uses it *)

Definition level_names : list string :=
  ["CRITICAL"; "FATAL"; "ERROR"; "WARN"; "WARNING"; "INFO"; "DEBUG"; "NOTSET"].

(** [logging.basicConfig(level=lvl)]: does nothing when the root logger
    already has a handler; otherwise installs one and sets the level,
    which rejects an unknown level name. *)
Definition logging_basicConfig (lvl : string) : M unit :=
  fun w =>
    if logging_configured w then (Ok tt, w)
    else
      let w' := add_events [EvBasicConfig lvl] (set_logging true w) in
      if bool_decide (lvl ∈ level_names) then (Ok tt, w')
      else (Raise (mkExn "ValueError" true ("Unknown level: '" ++ lvl ++ "'")), w').

(** [logging.info(msg)] / [logging.error(msg)]: the module-level helpers
    configure the root logger on first use, then hand it the record. *)
Definition logging_call (lvl msg : string) : M unit :=
  fun w => (Ok tt, add_events [EvLog lvl msg] (set_logging true w)).

Definition logging_info := logging_call "INFO".

Definition logging_error := logging_call "ERROR".

(** ** Configuration: the module-level defaults and [__init__] *)

Definition Language := string.

Definition Language_PYTHON : Language := "python".

(** The default [suffixes], [exclude] and [search_kwargs] objects are
    built once, when the [def] statement of [__init__] is executed. *)
Definition default_suffixes : loc := 1%positive.

Definition default_exclude : loc := 2%positive.

Definition default_search_kwargs : loc := 3%positive.

Definition module_heap : gmap loc PyObj :=
  <[default_suffixes := PyList [".py"]]>
  (<[default_exclude := PyList ["**/non-utf8-encoding.py"]]>
  (<[default_search_kwargs := PyDict {["k" := 8%Z]}]> ∅)).

(** [os.path.join(a, b)] for a relative [b]. *)
Fixpoint ends_with_sep (a : string) : bool :=
  match a with
  | EmptyString => false
  | String c EmptyString => bool_decide (String c EmptyString = "/")
  | String _ rest => ends_with_sep rest
  end.

Definition os_path_join (a b : string) : string :=
  if bool_decide (a = "") then b
  else if ends_with_sep a then a ++ b
  else a ++ "/" ++ b.

Record EmbedManager := mkEmbedManager {
  path : string;
  glob_rule : string;
  suffixes : loc;
  exclude : loc;
  language : Language;
  parser_threshold : Z;
  logging_level : option string;
  chunk_size : Z;
  chunk_overlap : Z;
  cache_dir : string;
  namespace_cache : string;
  search_type : string;
  search_kwargs : loc;
  use_cache : bool
}.

(** Keyword arguments of a constructor call; [None] is an omitted
    argument.  [kw_logging_level] is itself optional in Python
    ([None] is a legal value), hence the nested option. *)
Record Kwargs := mkKwargs {
  kw_path : option string;
  kw_glob_rule : option string;
  kw_suffixes : option loc;
  kw_exclude : option loc;
  kw_language : option Language;
  kw_parser_threshold : option Z;
  kw_logging_level : option (option string);
  kw_chunk_size : option Z;
  kw_chunk_overlap : option Z;
  kw_cache_dir : option string;
  kw_namespace_cache : option string;
  kw_search_type : option string;
  kw_search_kwargs : option loc;
  kw_use_cache : option bool
}.

Definition no_kwargs : Kwargs :=
  mkKwargs None None None None None None None None None None None None None None.

(** Truth value of [logging_level] in [if logging_level:]. *)
Definition truthy_level (l : option string) : option string :=
  match l with
  | Some s => if bool_decide (s = "") then None else Some s
  | None => None
  end.

Section Configuration.
(** [os.getcwd()] at the time the class body is executed. *)
Variable cwd : string.

Definition bind_arguments (kw : Kwargs) : EmbedManager :=
  {| path := default cwd (kw_path kw);
     glob_rule := default "**/*" (kw_glob_rule kw);
     suffixes := default default_suffixes (kw_suffixes kw);
     exclude := default default_exclude (kw_exclude kw);
     language := default Language_PYTHON (kw_language kw);
     parser_threshold := default 500%Z (kw_parser_threshold kw);
     logging_level := default None (kw_logging_level kw);
     chunk_size := default 2000%Z (kw_chunk_size kw);
     chunk_overlap := default 200%Z (kw_chunk_overlap kw);
     cache_dir := default (os_path_join cwd "cache") (kw_cache_dir kw);
     namespace_cache := default "cache_embeddings" (kw_namespace_cache kw);
     search_type := default "mmr" (kw_search_type kw);
     search_kwargs := default default_search_kwargs (kw_search_kwargs kw);
     use_cache := default true (kw_use_cache kw) |}.

Definition __init__ (kw : Kwargs) : M EmbedManager :=
  let self := bind_arguments kw in
  match truthy_level (logging_level self) with
  | Some lvl => logging_basicConfig lvl ;;; ret self
  | None => ret self
  end.

End Configuration.

(** Client-side mutation of a configuration object reached through an
    instance attribute: [m.suffixes.append(x)] and
    [m.search_kwargs[k] = v]. *)
Definition list_append (l : loc) (x : string) (h : gmap loc PyObj) : gmap loc PyObj :=
  match h !! l with
  | Some (PyList xs) => <[l := PyList (xs ++ [x])]> h
  | _ => h
  end.

Definition dict_setitem (l : loc) (k : string) (v : Z) (h : gmap loc PyObj) : gmap loc PyObj :=
  match h !! l with
  | Some (PyDict d) => <[l := PyDict (<[k := v]> d)]> h
  | _ => h
  end.

Definition read_list (h : gmap loc PyObj) (l : loc) : list string :=
  match h !! l with
  | Some (PyList xs) => xs
  | _ => []
  end.

Definition read_dict (h : gmap loc PyObj) (l : loc) : gmap string Z :=
  match h !! l with
  | Some (PyDict d) => d
  | _ => ∅
  end.

(** ** Documents and the collaborators of the class *)

Record Document := mkDocument {
  page_content : string;
  metadata : list (string * string)
}.

(** The collaborators whose code lives outside the package.  They are
    parameters of the development: nothing is assumed about them beyond
    their signatures.
    - [loader_load path glob suffixes exclude language threshold] is
      [GenericLoader.from_filesystem(...).load()];
    - [splitter_split language size overlap docs] is
      [RecursiveCharacterTextSplitter.from_language(...).split_documents(docs)];
    - [model_embed] is the embedding model on one text;
    - [derive namespace content] is the cache key of a text;
    - [serialize] and [deserialize] convert a vector to and from the
      raw bytes kept in the cache directory. *)
Class Collaborators := {
  Vector : Type;
  loader_load :
    string -> string -> list string -> list string -> Language -> Z ->
    result (list Document);
  splitter_split : Language -> Z -> Z -> list Document -> result (list Document);
  model_embed : string -> result Vector;
  derive : string -> string -> string;
  serialize : Vector -> list Byte.byte;
  deserialize : list Byte.byte -> Vector
}.

Fixpoint mapM {A B} (f : A -> M B) (l : list A) : M (list B) :=
  match l with
  | [] => ret []
  | x :: xs => y <- f x ;; ys <- mapM f xs ;; ret (y :: ys)
  end.

Fixpoint traverse {A B} (f : A -> result B) (l : list A) : result (list B) :=
  match l with
  | [] => Ok []
  | x :: xs =>
      match f x with
      | Raise e => Raise e
      | Ok y =>
          match traverse f xs with
          | Raise e => Raise e
          | Ok ys => Ok (y :: ys)
          end
      end
  end.

Fixpoint assoc {B} (t : string) (l : list (string * B)) : option B :=
  match l with
  | [] => None
  | (k, v) :: rest => if bool_decide (k = t) then Some v else assoc t rest
  end.

Definition get_heap : M (gmap loc PyObj) := fun w => (Ok (heap w), w).

(** ** Observations on a history *)

(** Store constructions recorded in a history. *)
Definition is_store_new (ev : Event) : bool :=
  match ev with EvStoreNew _ => true | _ => false end.

Definition store_constructions (tr : list Event) : nat :=
  length (List.filter is_store_new tr).

(** How often the model was asked for the embedding of [t]. *)
Definition occurrences (t : string) (batch : list string) : nat :=
  length (filter (fun x => x = t) batch).

Fixpoint invocations (t : string) (tr : list Event) : nat :=
  match tr with
  | [] => 0
  | EvModelCall batch :: rest => occurrences t batch + invocations t rest
  | _ :: rest => invocations t rest
  end.

(** The batches the model was called on, in order. *)
Definition model_calls (tr : list Event) : list (list string) :=
  omap (fun ev => match ev with EvModelCall batch => Some batch | _ => None end) tr.

(** ** The pipeline *)

Section Pipeline.
Context {C : Collaborators}.

(** *** Byte store *)

(** Modelled from the spec: the byte store ([LocalFileStore] of the
    storage library, whose code is not part of the package).  Section
    4.2: a key to bytes store on a directory with [get], [put] and
    [exists]; an unwritable storage path is fatal when the store is
    constructed; a read or write I/O error on one key is reported to
    the caller. *)
Definition LocalFileStore (root : string) : M string :=
  fun w =>
    if bool_decide (root ∈ readonly w) then
      (Raise (mkExn "ConfigurationError" true ("unwritable cache directory: " ++ root)), w)
    else (Ok root, add_events [EvStoreNew root] w).

Definition cache_io_error (key : string) : Exn :=
  mkExn "CacheIOError" true ("I/O error on " ++ key).

(** Modelled from the spec: [exists(key)] of the byte store (4.2). *)
Definition store_exists (store key : string) : M bool :=
  fun w =>
    if bool_decide ((store, key) ∈ faulty w) then
      (Raise (cache_io_error key), add_events [EvStoreGet store key] w)
    else
      (Ok (bool_decide (is_Some (disk w !! (store, key)))),
       add_events [EvStoreGet store key] w).

(** Modelled from the spec: [get(key)] of the byte store (4.2), which
    returns the bytes or reports the key absent. *)
Definition store_get (store key : string) : M (option (list Byte.byte)) :=
  fun w =>
    if bool_decide ((store, key) ∈ faulty w) then
      (Raise (cache_io_error key), add_events [EvStoreGet store key] w)
    else (Ok (disk w !! (store, key)), add_events [EvStoreGet store key] w).

(** Modelled from the spec: [put(key, bytes)] of the byte store (4.2);
    it fails, writing nothing, on an unwritable directory and on a
    faulty key. *)
Definition store_put (store key : string) (b : list Byte.byte) : M unit :=
  fun w =>
    if bool_decide (store ∈ readonly w) || bool_decide ((store, key) ∈ faulty w) then
      (Raise (cache_io_error key), add_events [EvStorePut store key] w)
    else
      (Ok tt,
       add_events [EvStorePut store key] (set_disk (<[(store, key) := b]> (disk w)) w)).


(** *** Embedders *)

Inductive Embedder :=
| GPT4All
| CacheBacked (underlying : Embedder) (store ns : string).

(** [GPT4AllEmbeddings()] *)
Definition GPT4AllEmbeddings : M Embedder :=
  emit EvModelNew ;;; ret GPT4All.

(** [CacheBackedEmbeddings.from_bytes_store(underlying_embeddings=...,
    document_embedding_cache=..., namespace=...)] *)
Definition from_bytes_store (underlying : Embedder) (store ns : string) : M Embedder :=
  emit (EvWrapperNew store ns) ;;; ret (CacheBacked underlying store ns).

(** The underlying embedding function on a batch: one call, which
    fails as a whole when the model fails on one of its texts. *)
Definition model_embed_documents (texts : list string) : M (list Vector) :=
  emit (EvModelCall texts) ;;; lift (traverse model_embed texts).

(** Modelled from the spec: the cache-backed embedder
    ([CacheBackedEmbeddings] of the embedding library, whose code is
    not part of the package), after the algorithm of section 4.3 and
    the error handling of section 7.  A failed lookup counts as a
    miss. *)
Definition cache_lookup (store ns t : string) : M bool :=
  try_except (store_exists store (derive ns t)) (fun _ => ret false).

(** Modelled from the spec: write-through of one new vector; a failed
    write is logged and the call goes on (section 7). *)
Definition cache_persist (store ns : string) (p : string * Vector) : M unit :=
  try_except (store_put store (derive ns p.1) (serialize p.2))
    (fun _ => logging_call "WARNING" ("cache write failed for " ++ p.1)).

(** Modelled from the spec: the vector of one input text, read from
    the store for a hit and taken from the newly computed ones for a
    miss; a failed read counts as a miss and the text is recomputed
    (section 7). *)
Definition cache_merge (underlying : list string -> M (list Vector))
    (store ns : string) (fresh : list (string * Vector)) (p : string * bool) : M Vector :=
  if p.2 then
    b <- try_except (store_get store (derive ns p.1)) (fun _ => ret None) ;;
    match b with
    | Some bytes => ret (deserialize bytes)
    | None =>
        recomputed <- underlying [p.1] ;;
        match recomputed with
        | v :: _ => ret v
        | [] => raise (mkExn "EmbeddingServiceError" true ("no vector for " ++ p.1))
        end
    end
  else
    match assoc p.1 fresh with
    | Some v => ret v
    | None => raise (mkExn "EmbeddingServiceError" true ("no vector for " ++ p.1))
    end.

(** Modelled from the spec: [embed_many] of section 4.3: derive the
    keys and look them up; deduplicate the misses and compute them in
    one call of the underlying function (no call when nothing is
    missing); persist every new vector under its key; read the cached
    vectors; merge in input order.  A failure of the underlying
    function fails the call before anything is written. *)
Definition cache_backed_embed_documents
    (underlying : list string -> M (list Vector))
    (store ns : string) (texts : list string) : M (list Vector) :=
  hits <- mapM (cache_lookup store ns) texts ;;
  let uncached :=
    remove_dups (omap (fun p : string * bool => if p.2 then None else Some p.1)
                      (zip texts hits)) in
  computed <- (match uncached with
               | [] => ret []
               | _ => underlying uncached
               end) ;;
  let fresh := zip uncached computed in
  mapM (cache_persist store ns) fresh ;;;
  mapM (cache_merge underlying store ns fresh) (zip texts hits).

Fixpoint embed_documents (e : Embedder) (texts : list string) : M (list Vector) :=
  match e with
  | GPT4All => model_embed_documents texts
  | CacheBacked underlying store ns =>
      cache_backed_embed_documents (embed_documents underlying) store ns texts
  end.

(** *** Vector index and retriever *)

(** Modelled from the spec: the retrieval index ([Chroma] of the
    vector-store library, whose code is not part of the package).
    Sections 3 and 4.5: the index is the collection of (chunk, vector)
    pairs built from the full chunk set passed to the embedder. *)
Definition Chroma_from_documents (texts : list Document) (e : Embedder)
  : M (list (Document * Vector)) :=
  vectors <- embed_documents e (map page_content texts) ;;
  ret (zip texts vectors).

(** Modelled from the spec: the retriever of the vector-store library
    (section 6: its query surface is [search_type] and
    [search_kwargs]).  The object returned by
    [db.as_retriever(search_type=..., search_kwargs=...)] is
    represented by the index and the two arguments of the call;
    [r_search_kwargs] is a reference to the dictionary object that was
    passed. *)
Record Retriever := mkRetriever {
  r_index : list (Document * Vector);
  r_search_type : string;
  r_search_kwargs : loc
}.

Definition as_retriever (db : list (Document * Vector))
    (search_type : string) (search_kwargs : loc) : Retriever :=
  mkRetriever db search_type search_kwargs.

(** *** The methods of [EmbedManager] *)

Definition load_documents (self : EmbedManager) : M (list Document) :=
  h <- get_heap ;;
  documents <- lift (loader_load (path self) (glob_rule self)
                       (read_list h (suffixes self)) (read_list h (exclude self))
                       (language self) (parser_threshold self)) ;;
  logging_info ("Loaded " ++ pretty (length documents) ++ " documents") ;;;
  ret documents.

Definition split_documents (self : EmbedManager) (documents : list Document)
  : M (list Document) :=
  texts <- lift (splitter_split (language self) (chunk_size self)
                   (chunk_overlap self) documents) ;;
  logging_info ("Split into " ++ pretty (length texts) ++ " text chunks") ;;;
  ret texts.

(** [use_cache = None] is a call that omits the keyword argument. *)
Definition generate_embeddings (self : EmbedManager) (texts : list Document)
    (use_cache : option bool) : M Retriever :=
  embedder <- (if default true use_cache then
                 cache_store <- LocalFileStore (cache_dir self) ;;
                 underlying <- GPT4AllEmbeddings ;;
                 from_bytes_store underlying cache_store (namespace_cache self)
               else GPT4AllEmbeddings) ;;
  db <- Chroma_from_documents texts embedder ;;
  ret (as_retriever db (search_type self) (search_kwargs self)).

(** [logging.error(f"An error occurred: {e}")]: the f-string is
    evaluated first, and [str(e)] may raise. *)
Definition log_exception (e : Exn) : M unit :=
  rendered <- lift (py_str e) ;;
  logging_error ("An error occurred: " ++ rendered).

Definition run (self : EmbedManager) : M Retriever :=
  try_except_reraise
    (documents <- load_documents self ;;
     texts <- split_documents self documents ;;
     retriever <- generate_embeddings self texts (Some (use_cache self)) ;;
     ret retriever)
    log_exception.

(** The pipeline without the [try] block, for comparison. *)
Definition stages (self : EmbedManager) : M Retriever :=
  documents <- load_documents self ;;
  texts <- split_documents self documents ;;
  generate_embeddings self texts (Some (use_cache self)).

End Pipeline.

(** ** Embedding calls over one cache directory *)

(** What a client does with the class over time: embedding calls, and
    restarts of the interpreter.  A restart resets the heap and the
    logging state; the cache directory survives it.  The history is
    kept across restarts, since it records what the model was asked
    over all runs. *)
Inductive Op :=
| Embed (self : EmbedManager) (texts : list Document) (use_cache : option bool)
| Restart.

Definition restart : M unit :=
  fun w => (Ok tt, mkWorld module_heap (disk w) (readonly w) (faulty w) false (trace w)).

Section SessionModel.
Context {C : Collaborators}.

Definition exec (op : Op) : M (option Retriever) :=
  match op with
  | Embed self texts use_cache =>
      retriever <- generate_embeddings self texts use_cache ;; ret (Some retriever)
  | Restart => restart ;;; ret None
  end.

(** A client that goes on after a failed call: the world after all
    the operations, whatever their outcomes. *)
Fixpoint after (ops : list Op) (w : World) : World :=
  match ops with
  | [] => w
  | op :: rest => after rest (exec op w).2
  end.


(** How often the operations that return submit [t] to the model: the
    submissions of a call that raises are left out. *)
Fixpoint answered (t : string) (ops : list Op) (w : World) : nat :=
  match ops with
  | [] => 0
  | op :: rest =>
      (if is_ok (exec op w).1
       then invocations t (trace (exec op w).2) - invocations t (trace w)
       else 0)
      + answered t rest (exec op w).2
  end.


End SessionModel.

(** ** Predicates on computations *)

(** A computation that leaves the heap, the directory permissions and
    the I/O faults alone and only ever appends to the history. *)
Definition steady {A} (c : M A) : Prop :=
  forall w,
    heap (c w).2 = heap w /\
    readonly (c w).2 = readonly w /\
    faulty (c w).2 = faulty w /\
    exists evs, trace (c w).2 = trace w ++ evs.

(** ** Stand-ins for the collaborators, after the unit tests

    [tests/test_embed_manager.py] replaces the loader by one that
    returns two documents and the splitter by one that returns two
    chunks, whatever their arguments.  The embedding model and the key
    deriver get simple stand-ins too. *)

Definition doc (s : string) : Document := mkDocument s [].

Definition test_doubles : Collaborators :=
  {| Vector := list Byte.byte;
     loader_load := fun _ _ _ _ _ _ => Ok [doc "doc1"; doc "doc2"];
     splitter_split := fun _ _ _ _ => Ok [doc "chunk1"; doc "chunk2"];
     model_embed := fun t => Ok (String.list_byte_of_string t);
     derive := fun ns t => String.append ns (String.append "/" t);
     serialize := fun v => v;
     deserialize := fun b => b |}.

(** A model that is down: every embedding request fails. *)
Definition unavailable_model : Collaborators :=
  {| Vector := list Byte.byte;
     loader_load := fun _ _ _ _ _ _ => Ok [doc "doc1"; doc "doc2"];
     splitter_split := fun _ _ _ _ => Ok [doc "chunk1"; doc "chunk2"];
     model_embed := fun t => Raise (mkExn "EmbeddingServiceError" true "model unavailable");
     derive := fun ns t => String.append ns (String.append "/" t);
     serialize := fun v => v;
     deserialize := fun b => b |}.

(** The world of a freshly started interpreter that has imported the
    module, with an empty cache directory. *)
Definition fresh_world : World := mkWorld module_heap ∅ ∅ ∅ false [].

(** The instance of the unit tests: [EmbedManager(path="test_path",
    use_cache=False)]. *)
Definition test_kwargs : Kwargs :=
  mkKwargs (Some "test_path") None None None None None None None None None None None None
    (Some false).

Definition with_chunking (size overlap : Z) (kw : Kwargs) : Kwargs :=
  mkKwargs (kw_path kw) (kw_glob_rule kw) (kw_suffixes kw) (kw_exclude kw)
    (kw_language kw) (kw_parser_threshold kw) (kw_logging_level kw)
    (Some size) (Some overlap) (kw_cache_dir kw) (kw_namespace_cache kw)
    (kw_search_type kw) (kw_search_kwargs kw) (kw_use_cache kw).

(** A first run embeds three chunks, two of them identical; after a
    restart a second run embeds one of the old texts and a new one. *)
Definition two_runs : list Op :=
  [ Embed (bind_arguments "/srv/project" no_kwargs) [doc "a"; doc "a"; doc "b"] None;
    Restart;
    Embed (bind_arguments "/srv/project" no_kwargs) [doc "a"; doc "c"] (Some true) ].

(** ** Further observations and stand-ins *)

(** The heap after a client has changed it. *)
Definition set_heap (h : gmap loc PyObj) (w : World) : World :=
  mkWorld h (disk w) (readonly w) (faulty w) (logging_configured w) (trace w).

Definition is_log (ev : Event) : bool :=
  match ev with EvLog _ _ => true | _ => false end.

Definition is_model_new (ev : Event) : bool :=
  match ev with EvModelNew => true | _ => false end.

(** Constructions of the embedding model recorded in a history. *)
Definition model_constructions (tr : list Event) : nat :=
  length (List.filter is_model_new tr).

Definition is_construction (ev : Event) : bool :=
  match ev with
  | EvStoreNew _ | EvModelNew | EvWrapperNew _ _ => true
  | _ => false
  end.

(** A computation that constructs no store, no model and no wrapper. *)
Definition builds_nothing {A} (c : M A) : Prop :=
  forall w, exists evs,
    trace (c w).2 = trace w ++ evs /\ Forall (fun ev => is_construction ev = false) evs.

(** A loader that fails on a missing directory. *)
Definition broken_loader : Collaborators :=
  {| Vector := list Byte.byte;
     loader_load := fun p _ _ _ _ _ =>
       Raise (mkExn "FileNotFoundError" true (String.append "no such directory: " p));
     splitter_split := fun _ _ _ _ => Ok [doc "chunk1"; doc "chunk2"];
     model_embed := fun t => Ok (String.list_byte_of_string t);
     derive := fun ns t => String.append ns (String.append "/" t);
     serialize := fun v => v;
     deserialize := fun b => b |}.

(** A loader that is interrupted from the keyboard. *)
Definition interrupted_loader : Collaborators :=
  {| Vector := list Byte.byte;
     loader_load := fun _ _ _ _ _ _ => Raise (mkExn "KeyboardInterrupt" false "");
     splitter_split := fun _ _ _ _ => Ok [doc "chunk1"; doc "chunk2"];
     model_embed := fun t => Ok (String.list_byte_of_string t);
     derive := fun ns t => String.append ns (String.append "/" t);
     serialize := fun v => v;
     deserialize := fun b => b |}.

(** A loader that raises an exception whose [__str__] raises. *)
Definition unprintable_loader : Collaborators :=
  {| Vector := list Byte.byte;
     loader_load := fun _ _ _ _ _ _ =>
       Raise (mkUnprintable "LoaderError" true (mkExn "RuntimeError" true "no text"));
     splitter_split := fun _ _ _ _ => Ok [doc "chunk1"; doc "chunk2"];
     model_embed := fun t => Ok (String.list_byte_of_string t);
     derive := fun ns t => String.append ns (String.append "/" t);
     serialize := fun v => v;
     deserialize := fun b => b |}.



(** [EmbedManager(logging_level="DEBUG")] *)
Definition debug_kwargs : Kwargs :=
  mkKwargs None None None None None None (Some (Some "DEBUG")) None None None None None None
    None.

(** A world whose cache already holds an entry of another directory. *)
Definition shared_disk_world : World :=
  mkWorld module_heap {[ ("/srv/other/cache", "cache_embeddings/x") := [] ]} ∅ ∅ false
    [].

(** * Part II: properties *)

(** ** Lists, histories and worlds *)



Lemma invocations_app t tr1 tr2 :
  invocations t (tr1 ++ tr2) = invocations t tr1 + invocations t tr2.
Proof.
  induction tr1 as [|ev tr1 IH]; simpl; [done|].
  destruct ev; rewrite IH; lia.
Qed.



Lemma store_constructions_app tr1 tr2 :
  store_constructions (tr1 ++ tr2) = store_constructions tr1 + store_constructions tr2.
Proof. unfold store_constructions. by rewrite List.filter_app, length_app. Qed.






(** ** Basic facts about the monad and the stages *)

Section StageFacts.
Context {C : Collaborators}.

Lemma load_documents_frame self w :
  let w' := (load_documents self w).2 in
  heap w' = heap w /\ disk w' = disk w /\ readonly w' = readonly w.
Proof.
  unfold load_documents, bind, get_heap, lift. simpl.
  destruct (loader_load _ _ _ _ _ _); done.
Qed.

Lemma split_documents_frame self docs w :
  let w' := (split_documents self docs w).2 in
  heap w' = heap w /\ disk w' = disk w /\ readonly w' = readonly w.
Proof.
  unfold split_documents, bind, lift. simpl.
  destruct (splitter_split _ _ _ _); done.
Qed.

Lemma run_unfold self w :
  run self w = try_except_reraise (stages self) log_exception w.
Proof.
  unfold run, try_except_reraise.
  match goal with |- context [match ?b w with _ => _ end] =>
    assert (b w = stages self w) as ->
  end; [|done].
  unfold stages, bind.
  destruct (load_documents self w) as [[docs|e] w1]; [|done].
  destruct (split_documents self docs w1) as [[texts|e] w2]; [|done].
  destruct (generate_embeddings self texts _ w2) as [[r|e] w3]; done.
Qed.

(** What the handler of [run] does: nothing when [str(e)] raises, one
    ERROR record otherwise. *)
Lemma log_exception_effect e w :
  log_exception e w =
    match py_str e with
    | Ok rendered =>
        (Ok tt,
         add_events [EvLog "ERROR" (String.append "An error occurred: " rendered)]
           (set_logging true w))
    | Raise e' => (Raise e', w)
    end.
Proof. unfold log_exception, bind, lift. by destruct (py_str e). Qed.

(** The handler adds nothing but a log record, whatever happens. *)
Lemma run_stages_frame self w :
  heap (run self w).2 = heap (stages self w).2 /\
  disk (run self w).2 = disk (stages self w).2 /\
  readonly (run self w).2 = readonly (stages self w).2 /\
  exists evs,
    trace (run self w).2 = trace (stages self w).2 ++ evs /\
    Forall (fun ev => is_log ev = true) evs.
Proof.
  rewrite run_unfold. unfold try_except_reraise.
  destruct (stages self w) as [[r|e] w']; simpl.
  { repeat split; try done. exists []. by rewrite app_nil_r. }
  destruct (exn_is_Exception e); simpl.
  2:{ repeat split; try done. exists []. by rewrite app_nil_r. }
  rewrite log_exception_effect. destruct (py_str e) as [rendered|e']; simpl.
  - repeat split; try done. eexists. split; [reflexivity|]. by repeat constructor.
  - repeat split; try done. exists []. by rewrite app_nil_r.
Qed.

(** [run] returns exactly when the stages do, with their retriever. *)
Lemma run_stages_returned self w :
  match (stages self w).1 with
  | Ok r => (run self w).1 = Ok r
  | Raise _ => is_ok (run self w).1 = false
  end.
Proof.
  rewrite run_unfold. unfold try_except_reraise.
  destruct (stages self w) as [[r|e] w']; simpl; [done|].
  destruct (exn_is_Exception e); simpl; [|done].
  by destruct (log_exception e w') as [[[]|e'] w''].
Qed.

Lemma run_returns_inv self w r w' :
  run self w = (Ok r, w') -> stages self w = (Ok r, w').
Proof.
  rewrite run_unfold. unfold try_except_reraise.
  destruct (stages self w) as [[r0|e] w0]; [done|].
  destruct (exn_is_Exception e); [|discriminate].
  destruct (log_exception e w0) as [[[]|e'] w'']; discriminate.
Qed.

End StageFacts.

(** ** What the methods leave alone *)

Ltac steady_step evs :=
  let w := fresh "w" in
  intros w; simpl; repeat case_bool_decide; simpl;
  (split; [done|]; split; [done|]; split; [done|]; exists evs; simpl;
   rewrite ?app_nil_r; done).

Section Steady.
Context {C : Collaborators}.

Lemma steady_ret {A} (a : A) : steady (ret a).
Proof. steady_step (@nil Event). Qed.

Lemma steady_raise {A} e : steady (@raise A e).
Proof. steady_step (@nil Event). Qed.

Lemma steady_lift {A} (r : result A) : steady (lift r).
Proof. steady_step (@nil Event). Qed.

Lemma steady_emit ev : steady (emit ev).
Proof. steady_step [ev]. Qed.

Lemma steady_logging lvl msg : steady (logging_call lvl msg).
Proof. steady_step [EvLog lvl msg]. Qed.

Lemma steady_bind {A B} (c : M A) (k : A -> M B) :
  steady c -> (forall a, steady (k a)) -> steady (bind c k).
Proof.
  intros Hc Hk w. unfold bind. destruct (Hc w) as (Hh & Hr & Hf & evs & Hevs).
  destruct (c w) as [[a|e] w1]; simpl in *.
  - destruct (Hk a w1) as (Hh' & Hr' & Hf' & evs' & Hevs').
    split; [congruence|]. split; [congruence|]. split; [congruence|].
    exists (evs ++ evs'). by rewrite Hevs', Hevs, app_assoc.
  - split; [done|]. split; [done|]. split; [done|]. by exists evs.
Qed.

Lemma steady_try_except {A} (c : M A) (h : Exn -> M A) :
  steady c -> (forall e, steady (h e)) -> steady (try_except c h).
Proof.
  intros Hc Hh w. unfold try_except. destruct (Hc w) as (H1 & H2 & H3 & evs & Hevs).
  destruct (c w) as [[a|e] w1]; simpl in *.
  - split; [done|]. split; [done|]. split; [done|]. by exists evs.
  - destruct (exn_is_Exception e).
    + destruct (Hh e w1) as (H1' & H2' & H3' & evs' & Hevs').
      split; [congruence|]. split; [congruence|]. split; [congruence|].
      exists (evs ++ evs'). by rewrite Hevs', Hevs, app_assoc.
    + split; [done|]. split; [done|]. split; [done|]. by exists evs.
Qed.

Lemma steady_mapM {A B} (f : A -> M B) l :
  (forall a, steady (f a)) -> steady (mapM f l).
Proof.
  intros Hf. induction l as [|x xs IH]; simpl.
  - apply steady_ret.
  - apply steady_bind; [apply Hf|]. intros y.
    apply steady_bind; [apply IH|]. intros ys. apply steady_ret.
Qed.

Lemma steady_store_exists s k : steady (store_exists s k).
Proof. unfold store_exists. steady_step [EvStoreGet s k]. Qed.

Lemma steady_store_get s k : steady (store_get s k).
Proof. unfold store_get. steady_step [EvStoreGet s k]. Qed.

Lemma steady_store_put s k b : steady (store_put s k b).
Proof.
  intros w. unfold store_put. destruct (_ || _); simpl;
    (split; [done|]; split; [done|]; split; [done|]; by exists [EvStorePut s k]).
Qed.

Lemma steady_model texts : steady (model_embed_documents texts).
Proof.
  apply steady_bind; [apply steady_emit|]. intros _. apply steady_lift.
Qed.

Lemma steady_cache_backed underlying s ns texts :
  (forall ts, steady (underlying ts)) ->
  steady (cache_backed_embed_documents underlying s ns texts).
Proof.
  intros Hu. unfold cache_backed_embed_documents.
  apply steady_bind.
  { apply steady_mapM. intros t. unfold cache_lookup.
    apply steady_try_except; [apply steady_store_exists | intros; apply steady_ret]. }
  intros hits. apply steady_bind.
  { destruct (remove_dups _); [apply steady_ret | apply Hu]. }
  intros computed. apply steady_bind.
  { apply steady_mapM. intros p. unfold cache_persist.
    apply steady_try_except; [apply steady_store_put | intros; apply steady_logging]. }
  intros _. apply steady_mapM. intros [t hit]. unfold cache_merge; simpl. destruct hit.
  - apply steady_bind.
    { apply steady_try_except; [apply steady_store_get | intros; apply steady_ret]. }
    intros [b|]; [apply steady_ret|].
    apply steady_bind; [apply Hu|].
    intros [|v vs]; [apply steady_raise | apply steady_ret].
  - destruct (assoc t _); [apply steady_ret | apply steady_raise].
Qed.

Lemma steady_embed_documents e texts : steady (embed_documents e texts).
Proof.
  revert texts. induction e as [|u IH s ns]; intros texts; simpl.
  - apply steady_model.
  - apply steady_cache_backed. apply IH.
Qed.

Lemma steady_Chroma texts e : steady (Chroma_from_documents texts e).
Proof.
  apply steady_bind; [apply steady_embed_documents|]. intros; apply steady_ret.
Qed.

Lemma steady_LocalFileStore root : steady (LocalFileStore root).
Proof.
  intros w. unfold LocalFileStore. case_bool_decide; simpl.
  - split; [done|]. split; [done|]. split; [done|]. exists []. by rewrite app_nil_r.
  - split; [done|]. split; [done|]. split; [done|]. by exists [EvStoreNew root].
Qed.

Lemma steady_generate_embeddings self texts uc :
  steady (generate_embeddings self texts uc).
Proof.
  unfold generate_embeddings. apply steady_bind.
  - destruct (default true uc).
    + apply steady_bind; [apply steady_LocalFileStore|]. intros st.
      apply steady_bind.
      { apply steady_bind; [apply steady_emit|]. intros; apply steady_ret. }
      intros u. apply steady_bind; [apply steady_emit|]. intros; apply steady_ret.
    + apply steady_bind; [apply steady_emit|]. intros; apply steady_ret.
  - intros e. apply steady_bind; [apply steady_Chroma|]. intros; apply steady_ret.
Qed.

End Steady.

(** ** The orchestration of [run] *)

Section Orchestration.
Context {C : Collaborators}.

(** C3. [run] composes load, then split, then embed/index: it returns
    exactly when
    [generate_embeddings(split_documents(load_documents()),
    use_cache=self.use_cache)] returns, with that retriever; it leaves
    the cache directory contents as that composition leaves them; and
    neither the load stage nor the split stage changes the cache
    directory contents. *)
Theorem run_composes_stages (self : EmbedManager) (w : World) :
  match (bind (load_documents self) (fun documents =>
           bind (split_documents self documents) (fun texts =>
             generate_embeddings self texts (Some (use_cache self)))) w).1 with
  | Ok retriever => (run self w).1 = Ok retriever
  | Raise _ => is_ok (run self w).1 = false
  end /\
  disk (run self w).2 =
    disk (bind (load_documents self) (fun documents =>
       bind (split_documents self documents) (fun texts =>
         generate_embeddings self texts (Some (use_cache self)))) w).2 /\
  (forall w0, disk (load_documents self w0).2 = disk w0) /\
  (forall documents w0, disk (split_documents self documents w0).2 = disk w0).
Proof.
  split; [apply run_stages_returned|].
  split; [apply run_stages_frame|].
  split.
  - intros w0. apply (load_documents_frame self w0).
  - intros documents w0. apply (split_documents_frame self documents w0).
Qed.

End Orchestration.

(** C4 fails on the code.  The handler of [run] evaluates
    [f"An error occurred: {e}"] before it re-raises: when the loader
    raises an exception whose [__str__] raises, [run] surfaces the
    exception raised by [__str__] instead of the loader's, and logs
    nothing. *)
Lemma run_replaces_unprintable_exception :
  (load_documents (C := unprintable_loader) (bind_arguments "/srv/project" no_kwargs)
     fresh_world).1
    = Raise (mkUnprintable "LoaderError" true (mkExn "RuntimeError" true "no text")) /\
  run (C := unprintable_loader) (bind_arguments "/srv/project" no_kwargs) fresh_world
    = (Raise (mkExn "RuntimeError" true "no text"), fresh_world).
Proof. split; vm_compute; reflexivity. Qed.

(** ** The two embedding modes *)

Section Modes.
Context {C : Collaborators}.

Lemma uncached_call_effect self texts w :
  trace (generate_embeddings self texts (Some false) w).2
    = trace w ++ [EvModelNew; EvModelCall (map page_content texts)] /\
  disk (generate_embeddings self texts (Some false) w).2 = disk w /\
  readonly (generate_embeddings self texts (Some false) w).2 = readonly w.
Proof.
  unfold generate_embeddings, Chroma_from_documents, GPT4AllEmbeddings, bind; simpl.
  unfold bind, lift; simpl.
  destruct (traverse model_embed (map page_content texts)) as [vs|e]; simpl;
    rewrite <- app_assoc; done.
Qed.

Lemma uncached_call_outcome self texts w :
  (generate_embeddings self texts (Some false) w).1
    = match traverse model_embed (map page_content texts) with
      | Ok vectors =>
          Ok (as_retriever (zip texts vectors) (search_type self) (search_kwargs self))
      | Raise e => Raise e
      end.
Proof.
  unfold generate_embeddings, Chroma_from_documents, GPT4AllEmbeddings, bind; simpl.
  unfold bind, lift; simpl.
  by destruct (traverse model_embed (map page_content texts)) as [vs|e].
Qed.

(** C2. [generate_embeddings(texts, use_cache=False)]: the only
    collaborator calls are the construction of the embedding model
    and one call of it on all the chunk texts; no store and no
    wrapper is constructed, no key is read or written, the cache
    directory contents are unchanged, and the retriever is built from
    the model's own vectors. *)
Theorem generate_embeddings_without_cache
    (self : EmbedManager) (texts : list Document) (w : World) :
  let out := generate_embeddings self texts (Some false) w in
  trace out.2 = trace w ++ [EvModelNew; EvModelCall (map page_content texts)] /\
  disk out.2 = disk w /\
  readonly out.2 = readonly w /\
  out.1 = match traverse model_embed (map page_content texts) with
          | Ok vectors =>
              Ok (as_retriever (zip texts vectors) (search_type self) (search_kwargs self))
          | Raise e => Raise e
          end.
Proof.
  intros out. subst out.
  destruct (uncached_call_effect self texts w) as (Ht & Hd & Hr).
  split; [exact Ht|]. split; [exact Hd|]. split; [exact Hr|].
  apply uncached_call_outcome.
Qed.

End Modes.




Section DefaultArgument.
Context {C : Collaborators}.




End DefaultArgument.


(** ** Chunk size and overlap *)

Section Chunking.
Context {C : Collaborators}.

(** C5, as the code has it.  The class never compares [chunk_overlap]
    with [chunk_size]: the constructor stores both as given and its
    success does not depend on them, and [split_documents] hands
    them unchanged to the splitter, whose outcome (chunks or
    exception) is the outcome of the method. *)
Theorem chunking_parameters_are_forwarded
    (cwd : string) (kw : Kwargs) (size overlap : Z)
    (self : EmbedManager) (documents : list Document) (w : World) :
  is_ok (__init__ cwd (with_chunking size overlap kw) w).1 = is_ok (__init__ cwd kw w).1 /\
  match (__init__ cwd (with_chunking size overlap kw) w).1 with
  | Ok m => chunk_size m = size /\ chunk_overlap m = overlap
  | Raise e => exn_class e = "ValueError"
  end /\
  (split_documents self documents w).1 =
    splitter_split (language self) (chunk_size self) (chunk_overlap self) documents.
Proof.
  split; [|split].
  - unfold __init__. simpl.
    destruct (truthy_level _) as [lvl|]; [|done].
    unfold bind, logging_basicConfig.
    destruct (logging_configured w); [done|]. by case_bool_decide.
  - unfold __init__. simpl.
    destruct (truthy_level _) as [lvl|]; [|done].
    unfold bind, logging_basicConfig.
    destruct (logging_configured w); [done|]. by case_bool_decide.
  - unfold split_documents, bind, lift. simpl.
    by destruct (splitter_split _ _ _ _).
Qed.

End Chunking.

(** C5 fails as stated: a configuration whose overlap equals the chunk
    size is accepted by the constructor, and with the splitter of the
    unit tests [split_documents] returns chunks under it. *)
Lemma overlap_equal_to_size_is_accepted :
  let kw := with_chunking 100 100 no_kwargs in
  __init__ "/srv/project" kw fresh_world
    = (Ok (bind_arguments "/srv/project" kw), fresh_world) /\
  (chunk_size (bind_arguments "/srv/project" kw)
     <= chunk_overlap (bind_arguments "/srv/project" kw))%Z /\
  (split_documents (C := test_doubles) (bind_arguments "/srv/project" kw)
     [doc "doc1"; doc "doc2"] fresh_world).1 = Ok [doc "chunk1"; doc "chunk2"].
Proof. split; [reflexivity|]. split; [simpl; lia | reflexivity]. Qed.

(** ** Default configuration objects *)

(** C6, as the code has it.  All instances built with default arguments
    refer to the same [suffixes] list, the same [exclude] list and the
    same [search_kwargs] dictionary, so an in-place change made through
    one instance is read back through the other. *)
Theorem default_objects_are_shared
    (cwd : string) (w1 w2 : World) (m1 m2 : EmbedManager) (h : gmap loc PyObj) :
  (__init__ cwd no_kwargs w1).1 = Ok m1 ->
  (__init__ cwd no_kwargs w2).1 = Ok m2 ->
  (suffixes m1 = suffixes m2 /\ exclude m1 = exclude m2 /\
   search_kwargs m1 = search_kwargs m2) /\
  (forall xs x, h !! suffixes m1 = Some (PyList xs) ->
     read_list (list_append (suffixes m1) x h) (suffixes m2) = xs ++ [x]) /\
  (forall xs x, h !! exclude m1 = Some (PyList xs) ->
     read_list (list_append (exclude m1) x h) (exclude m2) = xs ++ [x]) /\
  (forall d k v, h !! search_kwargs m1 = Some (PyDict d) ->
     read_dict (dict_setitem (search_kwargs m1) k v h) (search_kwargs m2) = <[k := v]> d).
Proof.
  unfold __init__. simpl. intros [= <-] [= <-]. simpl.
  split; [done|]. repeat split.
  - intros xs x Hx. unfold list_append, read_list. rewrite Hx.
    by rewrite lookup_insert_eq.
  - intros xs x Hx. unfold list_append, read_list. rewrite Hx.
    by rewrite lookup_insert_eq.
  - intros d k v Hd. unfold dict_setitem, read_dict. rewrite Hd.
    by rewrite lookup_insert_eq.
Qed.

Lemma default_objects_are_shared_witness :
  read_list (list_append default_suffixes ".js" module_heap) default_suffixes
    = [".py"; ".js"] /\
  read_dict (dict_setitem default_search_kwargs "k" 3%Z module_heap) default_search_kwargs
    = <["k" := 3%Z]> {["k" := 8%Z]}.
Proof.
  destruct (default_objects_are_shared "/srv/project" fresh_world fresh_world
              (bind_arguments "/srv/project" no_kwargs)
              (bind_arguments "/srv/project" no_kwargs)
              module_heap eq_refl eq_refl) as (_ & Hs & _ & Hk).
  split.
  - apply (Hs [".py"] ".js"). reflexivity.
  - apply (Hk {["k" := 8%Z]} "k" 3%Z). reflexivity.
Defined.

(** C6 fails as stated: after [m1.suffixes.append(".js")] on one
    default-constructed instance, a second default-constructed instance
    sees the new suffix too. *)
Lemma default_suffixes_mutation_is_visible :
  let m1 := bind_arguments "/srv/project" no_kwargs in
  let m2 := bind_arguments "/srv/project" no_kwargs in
  (__init__ "/srv/project" no_kwargs fresh_world).1 = Ok m1 /\
  (__init__ "/srv/project" no_kwargs fresh_world).1 = Ok m2 /\
  read_list (heap fresh_world) (suffixes m2) = [".py"] /\
  read_list (list_append (suffixes m1) ".js" (heap fresh_world)) (suffixes m2)
    = [".py"; ".js"].
Proof. repeat split. Qed.

(** ** The retriever *)

Section RetrieverSettings.
Context {C : Collaborators}.

Lemma generate_embeddings_retriever self texts uc w r w' :
  generate_embeddings self texts uc w = (Ok r, w') ->
  r_search_type r = search_type self /\ r_search_kwargs r = search_kwargs self.
Proof.
  unfold generate_embeddings, bind.
  match goal with |- context [match ?c w with _ => _ end] =>
    destruct (c w) as [[e|x] w1]; [|discriminate]
  end.
  destruct (Chroma_from_documents texts e w1) as [[db|x] w2]; [|discriminate].
  unfold ret. intros [= <- _]. done.
Qed.

Lemma run_returns_from_generate_embeddings self w r w' :
  run self w = (Ok r, w') ->
  exists texts w1,
    generate_embeddings self texts (Some (use_cache self)) w1 = (Ok r, w').
Proof.
  intros Hr. apply run_returns_inv in Hr. revert Hr. unfold stages, bind.
  destruct (load_documents self w) as [[docs|e] w1]; [|discriminate].
  destruct (split_documents self docs w1) as [[texts|e] w2]; [|discriminate].
  intros Hg. by exists texts, w2.
Qed.

(** C9. The retriever returned by [generate_embeddings], and so the
    one returned by [run], carries the instance's [search_type] and
    its [search_kwargs] dictionary; for an instance built with
    default arguments in an interpreter whose default objects are as
    the module created them, that is ["mmr"] and [{"k": 8}]. *)
Theorem retriever_search_settings
    (cwd : string) (self : EmbedManager) (texts : list Document)
    (uc : option bool) (w w' : World) (r : Retriever) :
  generate_embeddings self texts uc w = (Ok r, w') ->
  (r_search_type r = search_type self /\ r_search_kwargs r = search_kwargs self) /\
  (forall r2 w2, run self w = (Ok r2, w2) ->
     r_search_type r2 = search_type self /\ r_search_kwargs r2 = search_kwargs self) /\
  (forall w0, (__init__ cwd no_kwargs w0).1 = Ok self -> heap w = module_heap ->
     r_search_type r = "mmr" /\
     read_dict (heap w') (r_search_kwargs r) = {["k" := 8%Z]}).
Proof.
  intros Hg. destruct (generate_embeddings_retriever _ _ _ _ _ _ Hg) as [Ht Hk].
  split; [done|]. split.
  - intros r2 w2 Hr. destruct (run_returns_from_generate_embeddings _ _ _ _ Hr)
      as (texts2 & w1 & Hg2).
    by apply generate_embeddings_retriever in Hg2.
  - intros w0 Hinit Hheap. unfold __init__ in Hinit. simpl in Hinit.
    injection Hinit as <-. simpl in *.
    destruct (steady_generate_embeddings
                (bind_arguments cwd no_kwargs) texts uc w) as (Hh & _).
    rewrite Hg in Hh. simpl in Hh.
    split; [done|]. rewrite Hk, Hh, Hheap. reflexivity.
Qed.

End RetrieverSettings.

Lemma retriever_search_settings_witness :
  exists r w',
    generate_embeddings (C := test_doubles) (bind_arguments "/srv/project" no_kwargs)
      [doc "chunk1"; doc "chunk2"] None fresh_world = (Ok r, w') /\
    r_search_type r = "mmr" /\
    read_dict (heap w') (r_search_kwargs r) = {["k" := 8%Z]}.
Proof.
  eexists _, _. split; [vm_compute; reflexivity|].
  eapply (retriever_search_settings (C := test_doubles) "/srv/project"
            (bind_arguments "/srv/project" no_kwargs)
            [doc "chunk1"; doc "chunk2"] None fresh_world).
  - vm_compute; reflexivity.
  - instantiate (1 := fresh_world). reflexivity.
  - reflexivity.
Defined.

(** ** One call of the cache-backed embedder *)

Section CacheBackedFacts.
Context {C : Collaborators}.
Variables (s ns : string).








End CacheBackedFacts.

(** ** At most one answered submission per text *)

Section Sessions.
Context {C : Collaborators}.





End Sessions.



(** ** Runs on the stand-ins *)

(** The instance of the unit tests runs to completion: two documents,
    two chunks, one direct model call, no cache traffic. *)
Example run_on_test_doubles :
  let out := run (C := test_doubles) (bind_arguments "/srv/project" test_kwargs) fresh_world in
  is_ok out.1 = true /\
  trace out.2 =
    [ EvLog "INFO" "Loaded 2 documents";
      EvLog "INFO" "Split into 2 text chunks";
      EvModelNew;
      EvModelCall ["chunk1"; "chunk2"] ] /\
  disk out.2 = ∅.
Proof. vm_compute. done. Qed.

(** With caching, the same run constructs the store and the wrapper and
    writes one entry per chunk. *)
Example cached_run_on_test_doubles :
  let out := run (C := test_doubles) (bind_arguments "/srv/project" no_kwargs) fresh_world in
  is_ok out.1 = true /\
  model_calls (trace out.2) = [["chunk1"; "chunk2"]] /\
  dom (disk out.2) =
    {[ ("/srv/project/cache", "cache_embeddings/chunk1");
       ("/srv/project/cache", "cache_embeddings/chunk2") ]}.
Proof.
  split; [vm_compute; done|]. split; [vm_compute; done|].
  apply set_eq. intros k. vm_compute. set_solver.
Qed.

(** Two runs over one cache directory: the second submits only the new
    text. *)
Example two_runs_on_test_doubles :
  model_calls (trace (after (C := test_doubles) two_runs fresh_world))
    = [["a"; "b"]; ["c"]] /\
  answered (C := test_doubles) "a" two_runs fresh_world = 1.
Proof. vm_compute. done. Qed.

(** When the model is down, [run] logs the error and raises it, and the
    cache directory stays as it was. *)
Example run_with_unavailable_model :
  let out := run (C := unavailable_model) (bind_arguments "/srv/project" no_kwargs)
               fresh_world in
  out.1 = Raise (mkExn "EmbeddingServiceError" true "model unavailable") /\
  last (trace out.2) = Some (EvLog "ERROR" "An error occurred: model unavailable") /\
  disk out.2 = ∅.
Proof. vm_compute. done. Qed.

(** ** What [run] logs *)

Section RunLogging.
Context {C : Collaborators}.


(** X11. When one of the stages raises an exception that derives from
    [Exception] and whose [str] raises, [run] logs nothing and raises
    what [str] raised, in place of the exception of the stage. *)
Theorem run_surfaces_str_failure
    (self : EmbedManager) (w w' : World) (e e' : Exn) :
  stages self w = (Raise e, w') ->
  exn_is_Exception e = true ->
  py_str e = Raise e' ->
  run self w = (Raise e', w').
Proof.
  intros Hs He Hr. rewrite run_unfold. unfold try_except_reraise.
  rewrite Hs, He, log_exception_effect, Hr. reflexivity.
Qed.

(** X2. When the stages return, or raise an exception that does not
    derive from [Exception] (a keyboard interrupt, say), [run] adds
    nothing: it has the outcome and the final world of the three
    stages. *)
Theorem run_is_transparent (self : EmbedManager) (w : World) :
  match (stages self w).1 with
  | Ok _ => True
  | Raise e => exn_is_Exception e = false
  end ->
  run self w = stages self w.
Proof.
  rewrite run_unfold. unfold try_except_reraise.
  destruct (stages self w) as [[r|e] w']; simpl; [done|].
  intros ->. reflexivity.
Qed.

(** X3. When the loader or the splitter raises, [run] raises too,
    having embedded nothing: the cache directory is as it was and the
    history has gained log records only, so no model, store or wrapper
    was constructed and the model was not called. *)
Theorem failed_load_or_split_embeds_nothing
    (self : EmbedManager) (w : World) (e : Exn) :
  (load_documents self w).1 = Raise e \/
  (exists documents w1,
     load_documents self w = (Ok documents, w1) /\
     (split_documents self documents w1).1 = Raise e) ->
  is_ok (run self w).1 = false /\
  disk (run self w).2 = disk w /\
  exists evs,
    trace (run self w).2 = trace w ++ evs /\ Forall (fun ev => is_log ev = true) evs.
Proof.
  intros H.
  assert (exists evs0,
            (stages self w).1 = Raise e /\ disk (stages self w).2 = disk w /\
            trace (stages self w).2 = trace w ++ evs0 /\
            Forall (fun ev => is_log ev = true) evs0) as (evs0 & Hs & Hd & Ht & Hl).
  { unfold stages, bind. destruct H as [Hl|(docs & w1 & Hl & Hsp)].
    - revert Hl. unfold load_documents, bind, get_heap, lift. simpl.
      destruct (loader_load _ _ _ _ _ _) as [docs|e0]; simpl; [discriminate|].
      intros [= ->]. exists []. rewrite app_nil_r. done.
    - rewrite Hl. revert Hl Hsp.
      unfold load_documents, split_documents, bind, get_heap, lift. simpl.
      destruct (loader_load _ _ _ _ _ _) as [docs'|e0]; simpl; [|discriminate].
      intros [= -> <-]. simpl.
      destruct (splitter_split _ _ _ _) as [texts|e0]; simpl; [discriminate|].
      intros [= ->]. eexists. repeat split; try done. by repeat constructor. }
  pose proof (run_stages_returned self w) as Hr. rewrite Hs in Hr.
  destruct (run_stages_frame self w) as (_ & Hd' & _ & evs & Ht' & Hl').
  split; [exact Hr|]. split; [congruence|].
  exists (evs0 ++ evs). rewrite Ht', Ht, app_assoc. split; [done|].
  by apply Forall_app.
Qed.

(** X10. A run of an instance with [use_cache=False] never changes the
    cache directory contents, whatever the collaborators do and
    whether it returns or raises. *)
Theorem uncached_run_leaves_cache_alone (self : EmbedManager) (w : World) :
  use_cache self = false ->
  disk (run self w).2 = disk w.
Proof.
  intros Hu. destruct (run_stages_frame self w) as (_ & -> & _).
  unfold stages, bind. rewrite Hu.
  pose proof (load_documents_frame self w) as (_ & Hl & _).
  destruct (load_documents self w) as [[docs|e] w1]; simpl in *; [|done].
  pose proof (split_documents_frame self docs w1) as (_ & Hs & _).
  destruct (split_documents self docs w1) as [[texts|e] w2]; simpl in *; [|congruence].
  destruct (uncached_call_effect self texts w2) as (_ & Hg & _). congruence.
Qed.

End RunLogging.


Lemma run_surfaces_str_failure_witness :
  run (C := unprintable_loader) (bind_arguments "/srv/project" no_kwargs) fresh_world
    = (Raise (mkExn "RuntimeError" true "no text"), fresh_world).
Proof.
  apply (run_surfaces_str_failure (C := unprintable_loader) _ _ _
           (mkUnprintable "LoaderError" true (mkExn "RuntimeError" true "no text"))).
  - vm_compute. reflexivity.
  - reflexivity.
  - reflexivity.
Defined.

Lemma run_is_transparent_witness :
  run (C := interrupted_loader) (bind_arguments "/srv/project" no_kwargs) fresh_world
    = (Raise (mkExn "KeyboardInterrupt" false ""), fresh_world).
Proof.
  rewrite (run_is_transparent (C := interrupted_loader)).
  - vm_compute. reflexivity.
  - vm_compute. reflexivity.
Defined.

Lemma failed_load_or_split_embeds_nothing_witness :
  is_ok (run (C := broken_loader) (bind_arguments "/srv/project" no_kwargs)
           fresh_world).1 = false /\
  disk (run (C := broken_loader) (bind_arguments "/srv/project" no_kwargs) fresh_world).2
    = ∅.
Proof.
  destruct (failed_load_or_split_embeds_nothing (C := broken_loader)
              (bind_arguments "/srv/project" no_kwargs) fresh_world
              (mkExn "FileNotFoundError" true "no such directory: /srv/project"))
    as (H1 & H2 & _).
  - left. vm_compute. reflexivity.
  - split; [exact H1 | exact H2].
Defined.

Lemma uncached_run_leaves_cache_alone_witness :
  disk (run (C := test_doubles) (bind_arguments "/srv/project" test_kwargs)
          shared_disk_world).2
    = disk shared_disk_world.
Proof.
  apply (uncached_run_leaves_cache_alone (C := test_doubles)). reflexivity.
Defined.

(** ** What each embedding call constructs *)

Lemma model_constructions_app tr1 tr2 :
  model_constructions (tr1 ++ tr2) = model_constructions tr1 + model_constructions tr2.
Proof. unfold model_constructions. by rewrite List.filter_app, length_app. Qed.

Lemma no_constructions evs :
  Forall (fun ev => is_construction ev = false) evs ->
  model_constructions evs = 0 /\ store_constructions evs = 0.
Proof.
  unfold model_constructions, store_constructions.
  induction 1 as [|ev evs Hev _ [IH1 IH2]]; [done|].
  destruct ev; simpl in *; try discriminate; done.
Qed.

Ltac builds_nothing_step evs :=
  let w := fresh "w" in
  intros w; simpl; repeat case_bool_decide; simpl;
  (exists evs; simpl; rewrite ?app_nil_r; split; [done|]; by repeat constructor).

Section Constructions.
Context {C : Collaborators}.

Lemma builds_nothing_ret {A} (a : A) : builds_nothing (ret a).
Proof. builds_nothing_step (@nil Event). Qed.

Lemma builds_nothing_raise {A} e : builds_nothing (@raise A e).
Proof. builds_nothing_step (@nil Event). Qed.

Lemma builds_nothing_logging lvl msg : builds_nothing (logging_call lvl msg).
Proof. builds_nothing_step [EvLog lvl msg]. Qed.

Lemma builds_nothing_bind {A B} (c : M A) (k : A -> M B) :
  builds_nothing c -> (forall a, builds_nothing (k a)) -> builds_nothing (bind c k).
Proof.
  intros Hc Hk w. unfold bind. destruct (Hc w) as (evs & Hevs & Hall).
  destruct (c w) as [[a|e] w1]; simpl in *.
  - destruct (Hk a w1) as (evs' & Hevs' & Hall').
    exists (evs ++ evs'). rewrite Hevs', Hevs, app_assoc. split; [done|].
    by apply Forall_app.
  - by exists evs.
Qed.

Lemma builds_nothing_try_except {A} (c : M A) (h : Exn -> M A) :
  builds_nothing c -> (forall e, builds_nothing (h e)) -> builds_nothing (try_except c h).
Proof.
  intros Hc Hh w. unfold try_except. destruct (Hc w) as (evs & Hevs & Hall).
  destruct (c w) as [[a|e] w1]; simpl in *; [by exists evs|].
  destruct (exn_is_Exception e); [|by exists evs].
  destruct (Hh e w1) as (evs' & Hevs' & Hall').
  exists (evs ++ evs'). rewrite Hevs', Hevs, app_assoc. split; [done|].
  by apply Forall_app.
Qed.

Lemma builds_nothing_mapM {A B} (f : A -> M B) l :
  (forall a, builds_nothing (f a)) -> builds_nothing (mapM f l).
Proof.
  intros Hf. induction l as [|x xs IH]; simpl; [apply builds_nothing_ret|].
  apply builds_nothing_bind; [apply Hf|]. intros y.
  apply builds_nothing_bind; [apply IH|]. intros ys. apply builds_nothing_ret.
Qed.

Lemma builds_nothing_store_exists s k : builds_nothing (store_exists s k).
Proof. unfold store_exists. builds_nothing_step [EvStoreGet s k]. Qed.

Lemma builds_nothing_store_get s k : builds_nothing (store_get s k).
Proof. unfold store_get. builds_nothing_step [EvStoreGet s k]. Qed.

Lemma builds_nothing_store_put s k b : builds_nothing (store_put s k b).
Proof.
  intros w. unfold store_put. exists [EvStorePut s k].
  destruct (_ || _); simpl; (split; [done|]; by repeat constructor).
Qed.

Lemma builds_nothing_model texts : builds_nothing (model_embed_documents texts).
Proof.
  intros w. exists [EvModelCall texts]. unfold model_embed_documents, bind, emit, lift.
  simpl. split; [done|]. by repeat constructor.
Qed.

Lemma builds_nothing_cache_backed underlying s ns texts :
  (forall ts, builds_nothing (underlying ts)) ->
  builds_nothing (cache_backed_embed_documents underlying s ns texts).
Proof.
  intros Hu. unfold cache_backed_embed_documents.
  apply builds_nothing_bind.
  { apply builds_nothing_mapM. intros t. unfold cache_lookup.
    apply builds_nothing_try_except;
      [apply builds_nothing_store_exists | intros; apply builds_nothing_ret]. }
  intros hits. apply builds_nothing_bind.
  { destruct (remove_dups _); [apply builds_nothing_ret | apply Hu]. }
  intros computed. apply builds_nothing_bind.
  { apply builds_nothing_mapM. intros p. unfold cache_persist.
    apply builds_nothing_try_except;
      [apply builds_nothing_store_put | intros; apply builds_nothing_logging]. }
  intros _. apply builds_nothing_mapM. intros [t hit]. unfold cache_merge; simpl.
  destruct hit.
  - apply builds_nothing_bind.
    { apply builds_nothing_try_except;
        [apply builds_nothing_store_get | intros; apply builds_nothing_ret]. }
    intros [b|]; [apply builds_nothing_ret|].
    apply builds_nothing_bind; [apply Hu|].
    intros [|v vs]; [apply builds_nothing_raise | apply builds_nothing_ret].
  - destruct (assoc t _); [apply builds_nothing_ret | apply builds_nothing_raise].
Qed.

Lemma builds_nothing_embed_documents e texts : builds_nothing (embed_documents e texts).
Proof.
  revert texts. induction e as [|u IH s ns]; intros texts; simpl.
  - apply builds_nothing_model.
  - apply builds_nothing_cache_backed. apply IH.
Qed.

Lemma builds_nothing_Chroma texts e : builds_nothing (Chroma_from_documents texts e).
Proof.
  apply builds_nothing_bind; [apply builds_nothing_embed_documents|].
  intros; apply builds_nothing_ret.
Qed.

(** X4. Every call of [generate_embeddings] that returns has
    constructed the embedding model exactly once, and the byte store
    once if it used the cache and not at all otherwise: nothing is kept
    from one call to the next. *)
Theorem generate_embeddings_constructs_model_once
    (self : EmbedManager) (texts : list Document) (uc : option bool)
    (w w' : World) (r : Retriever) :
  generate_embeddings self texts uc w = (Ok r, w') ->
  model_constructions (trace w') = S (model_constructions (trace w)) /\
  store_constructions (trace w') =
    store_constructions (trace w) + (if default true uc then 1 else 0).
Proof.
  unfold generate_embeddings. unfold bind at 1.
  destruct (default true uc).
  - unfold bind at 1. unfold LocalFileStore. case_bool_decide; [discriminate|].
    unfold bind at 1. unfold GPT4AllEmbeddings, from_bytes_store, bind, emit, ret.
    match goal with |- context [Chroma_from_documents texts ?e ?w1] =>
      destruct (builds_nothing_Chroma texts e w1) as (evs & Hevs & Hall);
      destruct (Chroma_from_documents texts e w1) as [[db|e'] w2]; [|discriminate]
    end.
    intros [= _ <-]. simpl in Hevs. rewrite Hevs.
    destruct (no_constructions evs Hall) as [Hm Hs].
    rewrite !model_constructions_app, !store_constructions_app, Hm, Hs.
    unfold model_constructions, store_constructions. simpl. lia.
  - unfold GPT4AllEmbeddings, bind, emit, ret.
    match goal with |- context [Chroma_from_documents texts ?e ?w1] =>
      destruct (builds_nothing_Chroma texts e w1) as (evs & Hevs & Hall);
      destruct (Chroma_from_documents texts e w1) as [[db|e'] w2]; [|discriminate]
    end.
    intros [= _ <-]. simpl in Hevs. rewrite Hevs.
    destruct (no_constructions evs Hall) as [Hm Hs].
    rewrite !model_constructions_app, !store_constructions_app, Hm, Hs.
    unfold model_constructions, store_constructions. simpl. lia.
Qed.

(** X8. Without the cache nothing is deduplicated: a call submits every
    occurrence of a text to the model, duplicates within the call and
    texts of earlier calls included. *)
Theorem uncached_call_submits_every_occurrence
    (self : EmbedManager) (texts : list Document) (w : World) (t : string) :
  invocations t (trace (generate_embeddings self texts (Some false) w).2)
    = invocations t (trace w) + occurrences t (map page_content texts).
Proof.
  destruct (uncached_call_effect self texts w) as (-> & _).
  rewrite invocations_app. simpl. lia.
Qed.

End Constructions.

Lemma generate_embeddings_constructs_model_once_witness :
  let self := bind_arguments "/srv/project" no_kwargs in
  let w1 := (generate_embeddings (C := test_doubles) self [doc "a"] None fresh_world).2 in
  let w2 := (generate_embeddings (C := test_doubles) self [doc "a"] None w1).2 in
  model_constructions (trace w2) = 2.
Proof.
  intros self w1 w2.
  assert (exists r,
            generate_embeddings (C := test_doubles) self [doc "a"] None w1 = (Ok r, w2))
    as [r Hr].
  { eexists. vm_compute. reflexivity. }
  destruct (generate_embeddings_constructs_model_once (C := test_doubles) _ _ _ _ _ _ Hr)
    as [Hm _].
  rewrite Hm. vm_compute. reflexivity.
Defined.

(** ** Configuration objects and logging *)

Lemma init_when_configured cwd kw w :
  logging_configured w = true ->
  __init__ cwd kw w = (Ok (bind_arguments cwd kw), w).
Proof.
  intros Hc. unfold __init__.
  destruct (truthy_level _) as [lvl|]; [|done].
  unfold bind, logging_basicConfig. by rewrite Hc.
Qed.

(** X6. The constructor has no effect and cannot fail when
    [logging_level] is [None] or the empty string, or when the root
    logger is already configured: it returns the instance and leaves
    the world as it was. *)
Theorem constructor_without_effect (cwd : string) (kw : Kwargs) (w : World) :
  truthy_level (logging_level (bind_arguments cwd kw)) = None \/
  logging_configured w = true ->
  __init__ cwd kw w = (Ok (bind_arguments cwd kw), w).
Proof.
  intros [Hn|Hc]; [|by apply init_when_configured].
  unfold __init__. by rewrite Hn.
Qed.

Lemma constructor_without_effect_witness :
  __init__ "/srv/project" test_kwargs fresh_world
    = (Ok (bind_arguments "/srv/project" test_kwargs), fresh_world).
Proof. apply constructor_without_effect. left. reflexivity. Defined.

Section LoggingOrder.
Context {C : Collaborators}.

(** X7. Once [load_documents] has returned, the root logger is
    configured, so a [logging_level] given to any instance constructed
    afterwards is ignored: the constructor returns the instance and
    changes nothing, even for a level name that logging would
    reject. *)
Theorem logging_level_ignored_after_load
    (self : EmbedManager) (documents : list Document) (w w1 : World)
    (cwd : string) (kw : Kwargs) :
  load_documents self w = (Ok documents, w1) ->
  __init__ cwd kw w1 = (Ok (bind_arguments cwd kw), w1).
Proof.
  intros Hl. apply init_when_configured. revert Hl.
  unfold load_documents, bind, get_heap, lift. simpl.
  destruct (loader_load _ _ _ _ _ _) as [docs|e]; simpl; [|discriminate].
  by intros [= _ <-].
Qed.

(** X5. The loader receives the contents the [suffixes] list has when
    [load_documents] is called: after a suffix has been appended
    through one default-constructed instance, loading through another
    default-constructed instance passes the longer list to the loader,
    with all other arguments as before. *)
Theorem shared_suffixes_reach_the_loader
    (cwd : string) (w0 w : World) (m1 m2 : EmbedManager)
    (xs : list string) (x : string) :
  (__init__ cwd no_kwargs w0).1 = Ok m1 ->
  (__init__ cwd no_kwargs w0).1 = Ok m2 ->
  heap w !! suffixes m1 = Some (PyList xs) ->
  (load_documents m2 (set_heap (list_append (suffixes m1) x (heap w)) w)).1
    = loader_load (path m2) (glob_rule m2) (xs ++ [x]) (read_list (heap w) (exclude m2))
        (language m2) (parser_threshold m2).
Proof.
  unfold __init__. simpl. intros [= <-] [= <-]. simpl. intros Hxs.
  unfold load_documents, bind, get_heap, lift. simpl.
  unfold list_append, read_list. rewrite Hxs.
  rewrite lookup_insert_eq, lookup_insert_ne by done.
  by destruct (loader_load _ _ _ _ _ _).
Qed.

End LoggingOrder.

Lemma logging_level_ignored_after_load_witness :
  exists w1,
    (load_documents (C := test_doubles) (bind_arguments "/srv/project" no_kwargs)
       fresh_world).2 = w1 /\
    __init__ "/srv/project" debug_kwargs w1
      = (Ok (bind_arguments "/srv/project" debug_kwargs), w1) /\
    is_ok (__init__ "/srv/project" debug_kwargs fresh_world).1 = true /\
    (__init__ "/srv/project" debug_kwargs fresh_world).2 <> fresh_world.
Proof.
  eexists. split; [reflexivity|]. split; [|split].
  - eapply (logging_level_ignored_after_load (C := test_doubles)
              (bind_arguments "/srv/project" no_kwargs) [doc "doc1"; doc "doc2"]
              fresh_world).
    vm_compute. reflexivity.
  - reflexivity.
  - vm_compute. discriminate.
Defined.

Lemma shared_suffixes_reach_the_loader_witness :
  (load_documents (C := test_doubles) (bind_arguments "/srv/project" no_kwargs)
     (set_heap (list_append default_suffixes ".js" module_heap) fresh_world)).1
    = Ok [doc "doc1"; doc "doc2"].
Proof.
  exact (shared_suffixes_reach_the_loader (C := test_doubles) "/srv/project"
           fresh_world fresh_world (bind_arguments "/srv/project" no_kwargs)
           (bind_arguments "/srv/project" no_kwargs) [".py"] ".js"
           eq_refl eq_refl eq_refl).
Defined.
